(** * xgo: wrapper around the CGO cross compiler docker container

    A shallow embedding of [xgo.go].  Go strings are byte sequences and
    are modelled by [string]; the [error] interface is modelled by the
    text of the error, [nil] being [None].  The program talks to the
    outside world through [flag.Parse], [fmt.Print*], [os.Getwd] and
    [os/exec]; what it prints and executes is recorded in a chronological
    trace of events, and the answers of the outside world come from an
    [OS] record. *)

From Stdlib Require Import String Ascii List Bool Arith Lia.
Import ListNotations.
Local Open Scope list_scope.
Local Open Scope string_scope.

(** ** Go values *)

(** Go's [error]: [nil] is [None], otherwise the text of [err.Error()]. *)
Definition error := option string.

(** [fmt.Sprintf("%v", b)] for a [bool]. *)
Definition fmt_bool (b : bool) : string := if b then "true" else "false".

(** ** The parts of the Go standard library the program calls *)

Module strings.

(** [strings.Split(s, sep)] for a separator of one byte, the only way the
    program calls it ([sep = ","]): the slices of [s] between the
    occurrences of the separator, hence always at least one slice. *)
Fixpoint Split (s : string) (sep : ascii) : list string :=
  match s with
  | EmptyString => [EmptyString]
  | String c rest =>
      if Ascii.eqb c sep then EmptyString :: Split rest sep
      else match Split rest sep with
           | [] => [String c EmptyString]
           | tok :: toks => String c tok :: toks
           end
  end.

Arguments Split s%_string sep%_char.

(** [strings.Join(elems, sep)], used to write target specs in statements. *)
Definition Join (elems : list string) (sep : string) : string :=
  String.concat sep elems.

End strings.

Module bytes.

(** [bytes.HasPrefix(s, prefix)]. *)
Fixpoint HasPrefix (s prefix : string) {struct prefix} : bool :=
  match prefix, s with
  | EmptyString, _ => true
  | String _ _, EmptyString => false
  | String p prefix', String c s' => Ascii.eqb c p && HasPrefix s' prefix'
  end.

(** [bytes.Contains(b, subslice)]: [subslice] occurs within [b]. *)
Fixpoint Contains (b subslice : string) : bool :=
  HasPrefix b subslice ||
  match b with
  | EmptyString => false
  | String _ b' => Contains b' subslice
  end.

End bytes.

(** ** Events and the outside world *)

(** What an external process leaves behind: what it wrote on its two
    streams and the error [cmd.Run] / [cmd.Output] reports ([None] when the
    process ran and exited with status zero). *)
Record ProcResult := mkProc {
  proc_stdout : string;
  proc_stderr : string;
  proc_err : error
}.

Inductive Event :=
| EvPrint (text : string)                       (* fmt.Print* on stdout *)
| EvExec (argv : list string) (r : ProcResult). (* an external process *)

Definition Trace := list Event.

(** Global flag variables, as set by [flag.Parse]. *)
Record Flags := mkFlags {
  goVersion : string;
  inPackage : string;
  outPrefix : string;
  srcRemote : string;
  srcBranch : string;
  crossDeps : string;
  targets : string;
  buildVerbose : bool;
  buildRace : bool
}.

(** How [flag.Parse()] ends on the default command line, whose error
    handling is [flag.ExitOnError]: it returns, or it ends the process
    itself, with status 0 after printing the usage when -h or -help is
    given (the program defines neither), with status 2 after reporting a
    flag that is undefined, malformed or lacks its value. *)
Inductive ParseOutcome :=
| ParseOk
| ParseHelp
| ParseError.

(** The environment of one run.  [flag_Args] and [flags] are what
    [flag.Args()] and the flag variables hold once [flag.Parse] is over.
    [os_exec] answers an external command given everything that happened
    before it. *)
Record OS := mkOS {
  os_Args0 : string;
  flag_Parse_outcome : ParseOutcome;
  flag_Args : list string;
  flags : Flags;
  os_Getwd : string + string;   (* inl folder | inr error text *)
  os_exec : Trace -> list string -> ProcResult
}.

(** ** A monad for traces, [log.Fatalf] and [os.Exit] *)

Inductive Result (A : Type) :=
| Ok (a : A)
| Fatal (msg : string)    (* log.Fatalf: message, then os.Exit(1) *)
| Exit (code : nat).      (* os.Exit(code) *)

Arguments Ok {A} a.
Arguments Fatal {A} msg.
Arguments Exit {A} code.

Definition M (A : Type) := Trace -> Result A * Trace.

Definition ret {A} (a : A) : M A := fun tr => (Ok a, tr).

Definition bind {A B} (m : M A) (f : A -> M B) : M B :=
  fun tr =>
    match m tr with
    | (Ok a, tr') => f a tr'
    | (Fatal msg, tr') => (Fatal msg, tr')
    | (Exit code, tr') => (Exit code, tr')
    end.

Declare Scope go_scope.
Delimit Scope go_scope with go.
Notation "x <- m ;; k" := (bind m (fun x => k))
  (at level 61, m at next level, right associativity) : go_scope.
Notation "m ;; k" := (bind m (fun _ => k))
  (at level 61, right associativity) : go_scope.
Local Open Scope go_scope.

Definition emit (e : Event) : M unit := fun tr => (Ok tt, (tr ++ [e])%list).

Definition fmt_Print (text : string) : M unit := emit (EvPrint text).

Definition log_Fatalf {A} (msg : string) : M A := fun tr => (Fatal msg, tr).

Definition os_Exit {A} (code : nat) : M A := fun tr => (Exit code, tr).

(** [flag.Parse()]: see [ParseOutcome]. *)
Definition flag_Parse (os : OS) : M unit :=
  match flag_Parse_outcome os with
  | ParseOk => ret tt
  | ParseHelp => os_Exit 0
  | ParseError => os_Exit 2
  end.

Definition newline : string := String (ascii_of_nat 10) EmptyString.

(** ** The program *)

Definition dockerBase : string := "karalabe/xgo-base".
Definition dockerDist : string := "karalabe/xgo-".

(** [exec.Command(name, arg...)] followed by [cmd.Run()] with both streams
    connected to the program's own ([run]), returning [cmd.Run]'s error. *)
Definition run (os : OS) (argv : list string) : M error :=
  fun tr =>
    let r := os_exec os tr argv in
    (Ok (proc_err r), (tr ++ [EvExec argv r])%list).

(** [exec.Command(name, arg...).Output()]: the standard output of the
    process, captured, and the error. *)
Definition exec_Output (os : OS) (argv : list string) : M (string * error) :=
  fun tr =>
    let r := os_exec os tr argv in
    (Ok (proc_stdout r, proc_err r), (tr ++ [EvExec argv r])%list).

Definition checkDocker (os : OS) : M error :=
  fmt_Print ("Checking docker installation..." ++ newline) ;;
  err <- run os ["docker"; "version"] ;;
  match err with
  | Some e => ret (Some e)
  | None => fmt_Print newline ;; ret None
  end.

Definition checkDockerImage (os : OS) (image : string) : M (bool * error) :=
  fmt_Print ("Checking for required docker image " ++ image ++ "... ") ;;
  oe <- exec_Output os ["docker"; "images"; "--no-trunc"] ;;
  match snd oe with
  | Some e => ret (false, Some e)
  | None => ret (bytes.Contains (fst oe) image, None)
  end.

Definition pullDockerImage (os : OS) (image : string) : M error :=
  fmt_Print ("Pulling " ++ image ++ " from docker registry..." ++ newline) ;;
  run os ["docker"; "pull"; image].

Fixpoint stringInSlice (a : string) (list : list string) : bool :=
  match list with
  | [] => false
  | b :: rest => if String.eqb b a then true else stringInSlice a rest
  end.

(** The seven named results of [getTargets]. *)
Record Targets := mkTargets {
  linux64 : string;
  linux386 : string;
  linuxArm : string;
  windows64 : string;
  windows386 : string;
  darwin64 : string;
  darwin386 : string
}.

Definition getTargets (targets : string) : M Targets :=
  let linux64 := "false" in
  let linux386 := "false" in
  let linuxArm := "false" in
  let windows64 := "false" in
  let windows386 := "false" in
  let darwin64 := "false" in
  let darwin386 := "false" in
  if negb (String.eqb targets "all") then
    let linux64 :=
      if stringInSlice "linux64" (strings.Split targets ",") then "true" else linux64 in
    let linux386 :=
      if stringInSlice "linux386" (strings.Split targets ",") then "true" else linux386 in
    let linuxArm :=
      if stringInSlice "linuxArm" (strings.Split targets ",") then "true" else linuxArm in
    let windows64 :=
      if stringInSlice "windows64" (strings.Split targets ",") then "true" else windows64 in
    let windows386 :=
      if stringInSlice "windows386" (strings.Split targets ",") then "true" else windows386 in
    let darwin64 :=
      if stringInSlice "darwin64" (strings.Split targets ",") then "true" else darwin64 in
    let darwin386 :=
      if stringInSlice "darwin386" (strings.Split targets ",") then "true" else darwin386 in
    ret (mkTargets linux64 linux386 linuxArm windows64 windows386 darwin64 darwin386)
  else
    fmt_Print "Building for all arch" ;;
    let linux64 := "true" in
    let linux386 := "true" in
    let linuxArm := "true" in
    let windows64 := "true" in
    let windows386 := "true" in
    let darwin64 := "true" in
    let darwin386 := "true" in
    ret (mkTargets linux64 linux386 linuxArm windows64 windows386 darwin64 darwin386).

(** The argument vector handed to [exec.Command] by [compile]. *)
Definition compile_argv (goVer folder repo remote branch pack deps prefix : string)
    (t : Targets) (verbose race : bool) : list string :=
  ["docker"; "run";
   "-v"; folder ++ ":/build";
   "-e"; "REPO_REMOTE=" ++ remote;
   "-e"; "REPO_BRANCH=" ++ branch;
   "-e"; "PACK=" ++ pack;
   "-e"; "LINUX64=" ++ linux64 t;
   "-e"; "LINUX386=" ++ linux386 t;
   "-e"; "LINUXARM=" ++ linuxArm t;
   "-e"; "WINDOWS64=" ++ windows64 t;
   "-e"; "WINDOWS386=" ++ windows386 t;
   "-e"; "DARWIN64=" ++ darwin64 t;
   "-e"; "DARWIN386=%s" ++ darwin386 t;
   "-e"; "DEPS=" ++ deps;
   "-e"; "OUT=" ++ prefix;
   "-e"; "FLAG_V=" ++ fmt_bool verbose;
   "-e"; "FLAG_RACE=" ++ fmt_bool race;
   dockerDist ++ goVer; repo].

Definition compile (os : OS) (repo remote branch pack targets deps prefix : string)
    (verbose race : bool) : M error :=
  folder <- match os_Getwd os with
            | inl folder => ret folder
            | inr e => log_Fatalf ("Failed to retrieve the working directory: " ++ e ++ ".")
            end ;;
  t <- getTargets targets ;;
  fmt_Print ("Cross compiling " ++ repo ++ "..." ++ newline) ;;
  run os (compile_argv (goVersion (flags os)) folder repo remote branch pack deps prefix
            t verbose race).

Definition main (os : OS) : M unit :=
  flag_Parse os ;;
  err <- checkDocker os ;;
  match err with
  | Some e => log_Fatalf ("Failed to check docker installation: " ++ e ++ ".")
  | None => ret tt
  end ;;
  (if negb (Nat.eqb (length (flag_Args os)) 1)
   then log_Fatalf ("Usage: " ++ os_Args0 os ++ " [options] <go import path>")
   else ret tt) ;;
  let image := dockerDist ++ goVersion (flags os) in
  fe <- checkDockerImage os image ;;
  match fe with
  | (_, Some e) =>
      log_Fatalf ("Failed to check docker image availability: " ++ e ++ ".")
  | (false, None) =>
      fmt_Print ("not found!" ++ newline) ;;
      err <- pullDockerImage os image ;;
      match err with
      | Some e => log_Fatalf ("Failed to pull docker image from the registry: " ++ e ++ ".")
      | None => ret tt
      end
  | (true, None) => fmt_Print ("found." ++ newline)
  end ;;
  let f := flags os in
  err <- compile os (nth 0 (flag_Args os) "") (srcRemote f) (srcBranch f) (inPackage f)
           (targets f) (crossDeps f) (outPrefix f) (buildVerbose f) (buildRace f) ;;
  match err with
  | Some e => log_Fatalf ("Failed to cross compile package: " ++ e ++ ".")
  | None => ret tt
  end.

(** The exit status of the process: [log.Fatalf] exits with 1, returning
    from [main] with 0, [os.Exit] with its argument. *)
Definition exit_code (r : Result unit) : nat :=
  match r with
  | Ok _ => 0
  | Fatal _ => 1
  | Exit code => code
  end.

(** One run of the program from an empty trace. *)
Definition run_main (os : OS) : Result unit * Trace := main os [].

(** * Definitions used in the statements *)

(** ** Strings *)

(** [s] holds no separator byte. *)
Fixpoint no_comma (s : string) : bool :=
  match s with
  | EmptyString => true
  | String c rest => negb (Ascii.eqb c ",") && no_comma rest
  end.

(** [sub] occurs in [s]: some bytes, then [sub], then some bytes. *)
Definition substring_of (sub s : string) : Prop :=
  exists before after, s = before ++ sub ++ after.

(** ** Target selection *)

(** The identifiers [getTargets] looks for, in the order of its results. *)
Definition identifiers : list string :=
  ["linux64"; "linux386"; "linuxArm"; "windows64"; "windows386";
   "darwin64"; "darwin386"].

(** A flag holds ["true"] when [P] and ["false"] otherwise. *)
Definition flag_is (v : string) (P : Prop) : Prop :=
  (P -> v = "true") /\ (~ P -> v = "false").

(** Each flag of [t] says whether its identifier is among [toks]. *)
Definition named_by (t : Targets) (toks : list string) : Prop :=
  flag_is (linux64 t) (In "linux64" toks) /\
  flag_is (linux386 t) (In "linux386" toks) /\
  flag_is (linuxArm t) (In "linuxArm" toks) /\
  flag_is (windows64 t) (In "windows64" toks) /\
  flag_is (windows386 t) (In "windows386" toks) /\
  flag_is (darwin64 t) (In "darwin64" toks) /\
  flag_is (darwin386 t) (In "darwin386" toks).

Definition no_targets : Targets :=
  {| linux64 := "false"; linux386 := "false"; linuxArm := "false";
     windows64 := "false"; windows386 := "false";
     darwin64 := "false"; darwin386 := "false" |}.

(** ** Runs of the program *)

Definition version_argv : list string := ["docker"; "version"].
Definition images_argv : list string := ["docker"; "images"; "--no-trunc"].

(** The image [main] asks for. *)
Definition image_name (os : OS) : string := dockerDist ++ goVersion (flags os).

Definition pull_argv (os : OS) : list string := ["docker"; "pull"; image_name os].

(** Command lines of the runtime's [run] and [pull] subcommands. *)
Definition is_docker_run (argv : list string) : Prop :=
  exists rest, argv = "docker" :: "run" :: rest.

Definition is_docker_pull (argv : list string) : Prop :=
  exists rest, argv = "docker" :: "pull" :: rest.

(** The flag set [getTargets] computes, whatever was printed before. *)
Definition targets_of (spec : string) : Targets :=
  match fst (getTargets spec []) with
  | Ok t => t
  | _ => no_targets
  end.

(** The command line [compile] builds in a run whose working directory is
    [folder]. *)
Definition compile_argv_of (os : OS) (folder : string) : list string :=
  let f := flags os in
  compile_argv (goVersion f) folder (nth 0 (flag_Args os) "") (srcRemote f)
    (srcBranch f) (inPackage f) (crossDeps f) (outPrefix f)
    (targets_of (targets f)) (buildVerbose f) (buildRace f).

(** Name the answer of the earliest external command still in the goal. *)
Ltac name_exec :=
  match goal with
  | |- context [os_exec ?o ?tr ?argv] =>
      lazymatch tr with
      | context [os_exec _ _ _] => fail
      | _ => idtac
      end;
      let r := fresh "r" in
      generalize (os_exec o tr argv); intros r
  end.

Ltac main_step :=
  match goal with
  | |- context [flag_Parse_outcome ?o] => destruct (flag_Parse_outcome o) eqn:?
  | |- context [Nat.eqb (length (flag_Args ?o)) 1] =>
      destruct (Nat.eqb (length (flag_Args o)) 1) eqn:?
  | |- context [os_Getwd ?o] => destruct (os_Getwd o) eqn:?
  | |- context [String.eqb (targets ?f) "all"] =>
      destruct (String.eqb (targets f) "all") eqn:?
  | |- context [bytes.Contains (proc_stdout ?r) ?i] =>
      is_var r; destruct (bytes.Contains (proc_stdout r) i) eqn:?
  | |- context [match proc_err ?r with _ => _ end] =>
      is_var r; destruct (proc_err r) eqn:?
  | _ => name_exec
  end;
  cbn [fst snd app negb].

(** Split a goal about [run_main os] into the possible courses of a run,
    each with its trace written out. *)
Ltac main_cases :=
  unfold run_main, main, compile_argv_of, targets_of;
  unfold flag_Parse, checkDocker, checkDockerImage, pullDockerImage, compile,
    getTargets, run, exec_Output, fmt_Print, emit, log_Fatalf, os_Exit, bind, ret;
  cbn [fst snd app negb];
  repeat main_step.

Ltac close_case :=
  unfold is_docker_run, is_docker_pull, pull_argv, image_name, images_argv,
    version_argv, compile_argv in *;
  cbn [In exit_code] in *;
  repeat match goal with
         | H : _ \/ _ |- _ => destruct H
         | H : _ /\ _ |- _ => destruct H
         | H : exists _, _ |- _ => destruct H
         | H : False |- _ => contradiction
         | H : EvPrint _ = EvExec _ _ |- _ => discriminate H
         | H : EvExec _ _ = EvExec _ _ |- _ => injection H as ? ?; subst
         | H : _ :: _ = _ :: _ |- _ => first [discriminate H | injection H as ? ?; subst]
         | H : @eq string _ _ |- _ => discriminate H
         end;
  try congruence.

(** *** Example environments *)

Definition proc_ok : ProcResult := mkProc "" "" None.

Definition default_flags : Flags :=
  {| goVersion := "latest"; inPackage := ""; outPrefix := ""; srcRemote := "";
     srcBranch := ""; crossDeps := ""; targets := "all";
     buildVerbose := false; buildRace := false |}.

(** Every command succeeds and prints nothing; one import path is given. *)
Definition os_quiet : OS :=
  {| os_Args0 := "xgo"; flag_Parse_outcome := ParseOk;
     flag_Args := ["github.com/user/project"];
     flags := default_flags; os_Getwd := inl "/home/user";
     os_exec := fun _ _ => proc_ok |}.

(** As [os_quiet], with no positional argument. *)
Definition os_no_args : OS :=
  {| os_Args0 := "xgo"; flag_Parse_outcome := ParseOk;
     flag_Args := [];
     flags := default_flags; os_Getwd := inl "/home/user";
     os_exec := fun _ _ => proc_ok |}.

(** No docker: every command fails to start. *)
Definition proc_missing : ProcResult :=
  mkProc "" "" (Some "exec: docker: executable file not found in $PATH").

Definition os_no_docker : OS :=
  {| os_Args0 := "xgo"; flag_Parse_outcome := ParseOk;
     flag_Args := ["github.com/user/project"];
     flags := default_flags; os_Getwd := inl "/home/user";
     os_exec := fun _ _ => proc_missing |}.

(** As [os_quiet], asking for the Go 1.3 image. *)
Definition os_go13 : OS :=
  {| os_Args0 := "xgo"; flag_Parse_outcome := ParseOk;
     flag_Args := ["github.com/user/project"];
     flags := {| goVersion := "1.3"; inPackage := ""; outPrefix := "";
                 srcRemote := ""; srcBranch := ""; crossDeps := "";
                 targets := "all"; buildVerbose := false; buildRace := false |};
     os_Getwd := inl "/home/user";
     os_exec := fun _ _ => proc_ok |}.

(** As [os_quiet], started in another directory. *)
Definition os_elsewhere : OS :=
  {| os_Args0 := "xgo"; flag_Parse_outcome := ParseOk;
     flag_Args := ["github.com/user/project"];
     flags := default_flags; os_Getwd := inl "/tmp/work";
     os_exec := fun _ _ => proc_ok |}.

(** The image listing succeeds with an empty standard output and a warning
    that names the image on its standard error. *)
Definition proc_warning : ProcResult :=
  mkProc "" "WARNING: skipping dangling layer of karalabe/xgo-latest" None.

Definition os_warning : OS :=
  {| os_Args0 := "xgo"; flag_Parse_outcome := ParseOk;
     flag_Args := ["github.com/user/project"];
     flags := default_flags; os_Getwd := inl "/home/user";
     os_exec := fun _ _ => proc_warning |}.

(** *** The compilation command line *)

(** Two runs carry the same build request: import path, remote, branch,
    sub-package, target spec, dependencies, output prefix, verbose and
    race flags. *)
Definition same_request (os1 os2 : OS) : Prop :=
  flag_Args os1 = flag_Args os2 /\
  srcRemote (flags os1) = srcRemote (flags os2) /\
  srcBranch (flags os1) = srcBranch (flags os2) /\
  inPackage (flags os1) = inPackage (flags os2) /\
  targets (flags os1) = targets (flags os2) /\
  crossDeps (flags os1) = crossDeps (flags os2) /\
  outPrefix (flags os1) = outPrefix (flags os2) /\
  buildVerbose (flags os1) = buildVerbose (flags os2) /\
  buildRace (flags os1) = buildRace (flags os2).

(** Position of the volume mount in the command line of [compile]. *)
Definition mount_index : nat := 3.

(** Two command lines agree everywhere but at the volume mount. *)
Definition eq_modulo_mount (a1 a2 : list string) : Prop :=
  length a1 = length a2 /\
  forall i, i <> mount_index -> nth_error a1 i = nth_error a2 i.

(** *** The image-presence check *)

(** What [cmd.CombinedOutput()] would capture: both streams in one buffer
    (standard output first in this model). *)
Definition combined_output (r : ProcResult) : string :=
  proc_stdout r ++ proc_stderr r.

(** *** Whole runs *)

(** The command lines of the external processes of a trace, in order. *)
Fixpoint execs (tr : Trace) : list (list string) :=
  match tr with
  | [] => []
  | EvPrint _ :: rest => execs rest
  | EvExec argv _ :: rest => argv :: execs rest
  end.

(** [t] is one of the seven identifiers. *)
Definition recognized (t : string) : bool := stringInSlice t identifiers.

(** Where [compile] puts the seven target assignments in its command
    line, with what precedes the flag in each. *)
Definition target_vars : list (nat * string) :=
  [(11, "LINUX64="); (13, "LINUX386="); (15, "LINUXARM=");
   (17, "WINDOWS64="); (19, "WINDOWS386="); (21, "DARWIN64=");
   (23, "DARWIN386=%s")].

(** The same positions, with the identifier [getTargets] looks for. *)
Definition target_table : list (nat * string * string) :=
  [(11, "LINUX64=", "linux64"); (13, "LINUX386=", "linux386");
   (15, "LINUXARM=", "linuxArm"); (17, "WINDOWS64=", "windows64");
   (19, "WINDOWS386=", "windows386"); (21, "DARWIN64=", "darwin64");
   (23, "DARWIN386=%s", "darwin386")].

(** Position of the image name in the command line of [compile]. *)
Definition image_index : nat := 32.

Definition proc_failed : ProcResult := mkProc "" "" (Some "exit status 1").

(** The second word of a command line. *)
Definition subcommand (argv : list string) : string := nth 1 argv "".

(** A docker in which one subcommand fails and the others succeed
    silently. *)
Definition failing_docker (sub : string) (tr : Trace) (argv : list string) : ProcResult :=
  if String.eqb (subcommand argv) sub then proc_failed else proc_ok.

Definition os_failing (sub : string) : OS :=
  {| os_Args0 := "xgo"; flag_Parse_outcome := ParseOk;
     flag_Args := ["github.com/user/project"];
     flags := default_flags; os_Getwd := inl "/home/user";
     os_exec := failing_docker sub |}.

(** [xgo -h]: flag.Parse prints the usage and ends the process. *)
Definition os_help : OS :=
  {| os_Args0 := "xgo"; flag_Parse_outcome := ParseHelp;
     flag_Args := [];
     flags := default_flags; os_Getwd := inl "/home/user";
     os_exec := fun _ _ => proc_ok |}.

(** As [os_quiet], with two positional arguments. *)
Definition os_two_args : OS :=
  {| os_Args0 := "xgo"; flag_Parse_outcome := ParseOk;
     flag_Args := ["github.com/user/a"; "github.com/user/b"];
     flags := default_flags; os_Getwd := inl "/home/user";
     os_exec := fun _ _ => proc_ok |}.

(** As [os_quiet], but the working directory cannot be read. *)
Definition os_no_cwd : OS :=
  {| os_Args0 := "xgo"; flag_Parse_outcome := ParseOk;
     flag_Args := ["github.com/user/project"];
     flags := default_flags; os_Getwd := inr "getwd: no such file or directory";
     os_exec := fun _ _ => proc_ok |}.

(** The listing shows the image of another release whose name starts with
    the name asked for. *)
Definition proc_lists_131 : ProcResult :=
  mkProc "karalabe/xgo-1.3.1   latest   0123456789ab" "" None.

Definition os_lists_131 : OS :=
  {| os_Args0 := "xgo"; flag_Parse_outcome := ParseOk;
     flag_Args := ["github.com/user/project"];
     flags := default_flags; os_Getwd := inl "/home/user";
     os_exec := fun _ _ => proc_lists_131 |}.

(** Close a course of a run that needs exactly one positional argument. *)
Ltac not_one_arg :=
  match goal with
  | Hone : Nat.eqb (length (flag_Args ?o)) 1 = true,
    Hlen : length (flag_Args ?o) <> 1 |- _ =>
      apply Nat.eqb_eq in Hone; contradiction
  end.

(** * Properties *)

(** ** Strings *)

Lemma stringInSlice_In (a : string) (l : list string) :
  stringInSlice a l = true <-> In a l.
Proof.
  induction l as [|b l IH]; simpl.
  - split; [discriminate | tauto].
  - destruct (String.eqb_spec b a) as [->|Hne].
    + split; auto.
    + rewrite IH. split; [auto | intros [H|H]; [contradiction | exact H]].
Qed.

Lemma stringInSlice_false (a : string) (l : list string) :
  stringInSlice a l = false <-> ~ In a l.
Proof.
  rewrite <- stringInSlice_In. destruct (stringInSlice a l); split; congruence.
Qed.

Lemma Split_nonempty (s : string) (sep : ascii) : strings.Split s sep <> [].
Proof.
  destruct s as [|c s]; simpl; [discriminate|].
  destruct (Ascii.eqb c sep); [discriminate|].
  destruct (strings.Split s sep); discriminate.
Qed.

Lemma Split_token (t : string) :
  no_comma t = true -> strings.Split t "," = [t].
Proof.
  induction t as [|c t IH]; simpl; intros H; [reflexivity|].
  apply andb_true_iff in H as [Hc Ht].
  apply negb_true_iff in Hc. rewrite Hc, (IH Ht). reflexivity.
Qed.

Lemma Split_token_comma (t rest : string) :
  no_comma t = true ->
  strings.Split (t ++ "," ++ rest) "," = t :: strings.Split rest ",".
Proof.
  induction t as [|c t IH]; simpl; intros H; [reflexivity|].
  apply andb_true_iff in H as [Hc Ht].
  apply negb_true_iff in Hc. rewrite Hc.
  change (t ++ String "," rest) with (t ++ "," ++ rest).
  rewrite (IH Ht). reflexivity.
Qed.

(** Splitting what [Join] glued gives the tokens back. *)
Lemma Split_Join (toks : list string) :
  toks <> [] ->
  Forall (fun t => no_comma t = true) toks ->
  strings.Split (strings.Join toks ",") "," = toks.
Proof.
  unfold strings.Join.
  induction toks as [|t toks IH]; intros Hne Hall; [congruence|].
  inversion Hall as [|? ? Ht Htoks]; subst.
  destruct toks as [|t' toks].
  - simpl. now apply Split_token.
  - change (String.concat "," (t :: t' :: toks))
      with (t ++ "," ++ String.concat "," (t' :: toks)).
    rewrite (Split_token_comma t _ Ht), IH; [reflexivity | discriminate | assumption].
Qed.

Lemma HasPrefix_spec (s prefix : string) :
  bytes.HasPrefix s prefix = true <-> exists after, s = prefix ++ after.
Proof.
  revert s; induction prefix as [|p prefix IH]; intros s; simpl.
  - split; [intros _; now exists s | reflexivity].
  - destruct s as [|c s].
    + split; [discriminate | intros [after H]; discriminate].
    + rewrite andb_true_iff, IH. split.
      * intros [Hc [after ->]]. apply Ascii.eqb_eq in Hc as ->. now exists after.
      * intros [after H]. injection H as -> ->. split; [apply Ascii.eqb_refl | now exists after].
Qed.

(** [bytes.Contains] decides the substring relation. *)
Lemma Contains_spec (b subslice : string) :
  bytes.Contains b subslice = true <-> substring_of subslice b.
Proof.
  unfold substring_of.
  induction b as [|c b IH].
  - cbn [bytes.Contains]. rewrite orb_false_r, HasPrefix_spec. split.
    + intros [after ->]. now exists "", after.
    + intros [[|c before] [after H]]; [now exists after | discriminate].
  - cbn [bytes.Contains]. rewrite orb_true_iff, HasPrefix_spec, IH. split.
    + intros [[after ->] | [before [after ->]]].
      * now exists "", after.
      * now exists (String c before), after.
    + intros [[|c' before] [after H]].
      * left. now exists after.
      * right. injection H as -> ->. now exists before, after.
Qed.

(** ** Target selection *)

Lemma flag_is_iff (v : string) (P Q : Prop) :
  (P <-> Q) -> flag_is v P -> flag_is v Q.
Proof. unfold flag_is; tauto. Qed.

Lemma flag_is_unique (v w : string) (P : Prop) :
  P \/ ~ P -> flag_is v P -> flag_is w P -> v = w.
Proof.
  unfold flag_is. intros [H|H] [Hv Hv'] [Hw Hw'].
  - now rewrite (Hv H), (Hw H).
  - now rewrite (Hv' H), (Hw' H).
Qed.

Lemma In_string_dec (a : string) (l : list string) : In a l \/ ~ In a l.
Proof. destruct (in_dec string_dec a l); auto. Qed.

Lemma stringInSlice_flag (id s : string) :
  flag_is (if stringInSlice id (strings.Split s ",") then "true" else "false")
          (In id (strings.Split s ",")).
Proof.
  unfold flag_is.
  destruct (stringInSlice id (strings.Split s ",")) eqn:E.
  - split; [reflexivity|]. apply stringInSlice_In in E. tauto.
  - split; [|reflexivity]. apply stringInSlice_false in E. tauto.
Qed.

(** Two token lists with the same identifiers name the same flags. *)
Lemma named_by_ext (t : Targets) (l l' : list string) :
  (forall id, In id identifiers -> (In id l <-> In id l')) ->
  named_by t l -> named_by t l'.
Proof.
  unfold named_by. intros Hext H.
  repeat match goal with
         | H : _ /\ _ |- _ => destruct H
         | |- _ /\ _ => split
         end;
    (eapply flag_is_iff; [apply Hext; simpl; tauto | eassumption]).
Qed.

Lemma named_by_unique (t t' : Targets) (l : list string) :
  named_by t l -> named_by t' l -> t = t'.
Proof.
  destruct t, t'. unfold named_by. simpl. intros H H'.
  repeat match goal with H : _ /\ _ |- _ => destruct H end.
  f_equal; eapply flag_is_unique; eauto using In_string_dec.
Qed.

(** Away from the sentinel, [getTargets] prints nothing, cannot fail and
    sets each flag by the presence of its identifier among the slices. *)
Lemma getTargets_not_all (s : string) (tr : Trace) :
  s <> "all" ->
  exists t, getTargets s tr = (Ok t, tr) /\ named_by t (strings.Split s ",").
Proof.
  intros Hs. unfold getTargets.
  destruct (String.eqb_spec s "all") as [->|_]; [congruence|].
  simpl. eexists. split; [reflexivity|].
  unfold named_by; simpl. repeat split; apply stringInSlice_flag.
Qed.

Lemma getTargets_total (s : string) (tr : Trace) :
  exists t tr', getTargets s tr = (Ok t, tr').
Proof.
  unfold getTargets. destruct (String.eqb s "all"); simpl.
  - eexists _, _. reflexivity.
  - eexists _, _. reflexivity.
Qed.

Lemma identifiers_no_comma (toks : list string) :
  Forall (fun t => In t identifiers) toks ->
  Forall (fun t => no_comma t = true) toks.
Proof.
  apply Forall_impl. intros t Ht. simpl in Ht.
  repeat destruct Ht as [<-|Ht]; try reflexivity. contradiction.
Qed.

Lemma Join_not_all (toks : list string) :
  Forall (fun t => no_comma t = true) toks ->
  toks <> ["all"] -> strings.Join toks "," <> "all".
Proof.
  intros Hall Hne Heq.
  destruct toks as [|t toks]; [discriminate|].
  apply Hne. rewrite <- (Split_Join (t :: toks)); [|discriminate|assumption].
  rewrite Heq. reflexivity.
Qed.

(** The slices of a joined list hold the same identifiers as the list. *)
Lemma Split_Join_identifiers (toks : list string) :
  Forall (fun t => no_comma t = true) toks ->
  forall id, In id identifiers ->
    (In id (strings.Split (strings.Join toks ",") ",") <-> In id toks).
Proof.
  intros Hall id Hid. destruct toks as [|t toks].
  - simpl. split; [|contradiction]. intros [<-|[]].
    simpl in Hid. repeat destruct Hid as [Hid|Hid]; try discriminate. contradiction.
  - rewrite Split_Join; [tauto | discriminate | assumption].
Qed.

Lemma getTargets_Join (toks : list string) (tr : Trace) :
  Forall (fun t => no_comma t = true) toks ->
  toks <> ["all"] ->
  exists t, getTargets (strings.Join toks ",") tr = (Ok t, tr) /\ named_by t toks.
Proof.
  intros Hall Hne.
  destruct (getTargets_not_all (strings.Join toks ",") tr (Join_not_all toks Hall Hne))
    as [t [Hrun Hnamed]].
  exists t. split; [assumption|].
  eapply named_by_ext; [|eassumption].
  intros id Hid. now apply Split_Join_identifiers.
Qed.

(** C3: for the target spec "all", getTargets returns all seven flags set
    to "true" (after printing its notice). *)
Theorem getTargets_all (tr : Trace) :
  getTargets "all" tr =
  (Ok {| linux64 := "true"; linux386 := "true"; linuxArm := "true";
         windows64 := "true"; windows386 := "true";
         darwin64 := "true"; darwin386 := "true" |},
   (tr ++ [EvPrint "Building for all arch"])%list).
Proof. reflexivity. Qed.

(** C4: for a comma-separated list of recognized identifiers, exactly the
    flags whose identifier is in the list are "true" and the others are
    "false"; two lists naming the same identifiers, in any order and with
    any repetition, give the same flags; and "linux64,darwin64" sets
    linux64 and darwin64 only. *)
Theorem getTargets_named_subset (toks : list string) (tr : Trace) :
  Forall (fun t => In t identifiers) toks ->
  (exists t,
     getTargets (strings.Join toks ",") tr = (Ok t, tr) /\ named_by t toks) /\
  (forall toks',
     Forall (fun t => In t identifiers) toks' ->
     (forall id, In id toks <-> In id toks') ->
     getTargets (strings.Join toks' ",") tr = getTargets (strings.Join toks ",") tr) /\
  getTargets "linux64,darwin64" tr =
  (Ok {| linux64 := "true"; linux386 := "false"; linuxArm := "false";
         windows64 := "false"; windows386 := "false";
         darwin64 := "true"; darwin386 := "false" |}, tr).
Proof.
  assert (Hrun : forall l, Forall (fun t => In t identifiers) l ->
            exists t, getTargets (strings.Join l ",") tr = (Ok t, tr) /\ named_by t l).
  { intros l Hl. apply getTargets_Join.
    - now apply identifiers_no_comma.
    - intros ->. inversion Hl as [|? ? Hin _]; subst. simpl in Hin.
      repeat destruct Hin as [Hin|Hin]; try discriminate. contradiction. }
  intros Htoks. split; [now apply Hrun | split; [|reflexivity]].
  intros toks' Htoks' Hsame.
  destruct (Hrun toks Htoks) as [t [-> Ht]].
  destruct (Hrun toks' Htoks') as [t' [-> Ht']].
  f_equal. f_equal. apply (named_by_unique t' t toks); [|assumption].
  eapply named_by_ext; [|eassumption]. intros id _. symmetry. apply Hsame.
Qed.

Lemma getTargets_named_subset_witness :
  (exists t,
     getTargets (strings.Join ["darwin64"; "linux64"; "darwin64"] ",") [] = (Ok t, []) /\
     named_by t ["darwin64"; "linux64"; "darwin64"]) /\
  (forall toks',
     Forall (fun t => In t identifiers) toks' ->
     (forall id, In id ["darwin64"; "linux64"; "darwin64"] <-> In id toks') ->
     getTargets (strings.Join toks' ",") [] =
     getTargets (strings.Join ["darwin64"; "linux64"; "darwin64"] ",") []) /\
  getTargets "linux64,darwin64" [] =
  (Ok {| linux64 := "true"; linux386 := "false"; linuxArm := "false";
         windows64 := "false"; windows386 := "false";
         darwin64 := "true"; darwin386 := "false" |}, []).
Proof.
  apply (getTargets_named_subset ["darwin64"; "linux64"; "darwin64"] []).
  repeat constructor; simpl; tauto.
Defined.

(** C5: a target spec other than "all" none of whose comma-separated
    tokens is a recognized identifier (the empty spec included) gives
    seven "false" flags, without error or output; and getTargets returns
    a flag set on every input. *)
Theorem getTargets_unrecognized (s : string) (tr : Trace) :
  s <> "all" ->
  (forall id, In id identifiers -> ~ In id (strings.Split s ",")) ->
  getTargets s tr = (Ok no_targets, tr) /\
  getTargets "" tr = (Ok no_targets, tr) /\
  (forall s' tr', exists t tr'', getTargets s' tr' = (Ok t, tr'')).
Proof.
  intros Hs Hnone. split; [|split; [reflexivity | apply getTargets_total]].
  destruct (getTargets_not_all s tr Hs) as [t [-> Ht]].
  f_equal. f_equal. apply (named_by_unique t no_targets (strings.Split s ",") Ht).
  unfold named_by, flag_is; simpl.
  repeat split; try reflexivity; intros Hin; exfalso;
    (eapply Hnone; [|exact Hin]); simpl; tauto.
Qed.

Lemma getTargets_unrecognized_witness :
  getTargets "freebsd64,,Linux64" [] = (Ok no_targets, []) /\
  getTargets "" [] = (Ok no_targets, []) /\
  (forall s' tr', exists t tr'', getTargets s' tr' = (Ok t, tr'')).
Proof.
  apply (getTargets_unrecognized "freebsd64,,Linux64" []).
  - discriminate.
  - intros id Hid Hin. simpl in Hid, Hin.
    repeat destruct Hid as [<-|Hid]; try contradiction;
      repeat destruct Hin as [Hin|Hin]; try discriminate; contradiction.
Defined.

(** C10: when "all" is one token among several, the spec is not the
    sentinel: the token is dropped without error or output, the flags are
    those named by the remaining tokens, and the result is that of the
    spec without the "all" tokens; "all,linux64" sets linux64 only. *)
Theorem sentinel_only_as_whole_spec (toks : list string) (tr : Trace) :
  Forall (fun t => no_comma t = true) toks ->
  In "all" toks ->
  2 <= length toks ->
  (exists t,
     getTargets (strings.Join toks ",") tr = (Ok t, tr) /\
     named_by t (remove string_dec "all" toks)) /\
  getTargets (strings.Join toks ",") tr =
  getTargets (strings.Join (remove string_dec "all" toks) ",") tr /\
  getTargets "all,linux64" tr =
  (Ok {| linux64 := "true"; linux386 := "false"; linuxArm := "false";
         windows64 := "false"; windows386 := "false";
         darwin64 := "false"; darwin386 := "false" |}, tr).
Proof.
  intros Hall Hin Hlen.
  assert (Hne : toks <> ["all"]) by (intros ->; simpl in Hlen; lia).
  assert (Hdrop : forall id, In id identifiers ->
            (In id toks <-> In id (remove string_dec "all" toks))).
  { intros id Hid. split.
    - intros H. apply in_in_remove; [|assumption].
      intros ->. simpl in Hid.
      repeat destruct Hid as [Hid|Hid]; try discriminate. contradiction.
    - intros H. now apply in_remove in H. }
  assert (Hall' : Forall (fun t => no_comma t = true) (remove string_dec "all" toks)).
  { apply Forall_forall. intros x Hx. apply in_remove in Hx as [Hx _].
    revert x Hx. now apply Forall_forall. }
  assert (Hne' : remove string_dec "all" toks <> ["all"]).
  { intros Heq. apply (remove_In string_dec toks "all"). rewrite Heq. now left. }
  destruct (getTargets_Join toks tr Hall Hne) as [t [Hrun Ht]].
  destruct (getTargets_Join _ tr Hall' Hne') as [t' [Hrun' Ht']].
  assert (Ht2 : named_by t (remove string_dec "all" toks))
    by (eapply named_by_ext; eassumption).
  split; [exists t; now split | split; [|reflexivity]].
  rewrite Hrun, Hrun'. f_equal. f_equal. eapply named_by_unique; eassumption.
Qed.

Lemma sentinel_only_as_whole_spec_witness :
  (exists t,
     getTargets (strings.Join ["all"; "linux64"] ",") [] = (Ok t, []) /\
     named_by t (remove string_dec "all" ["all"; "linux64"])) /\
  getTargets (strings.Join ["all"; "linux64"] ",") [] =
  getTargets (strings.Join (remove string_dec "all" ["all"; "linux64"]) ",") [] /\
  getTargets "all,linux64" [] =
  (Ok {| linux64 := "true"; linux386 := "false"; linuxArm := "false";
         windows64 := "false"; windows386 := "false";
         darwin64 := "false"; darwin386 := "false" |}, []).
Proof.
  apply (sentinel_only_as_whole_spec ["all"; "linux64"] []).
  - repeat constructor.
  - simpl; tauto.
  - simpl; lia.
Defined.

(** ** Runs of the program *)

(** Every external command of a run is one of the four the program knows. *)
Lemma run_main_commands (os : OS) (argv : list string) (r : ProcResult) :
  In (EvExec argv r) (snd (run_main os)) ->
  argv = version_argv \/ argv = images_argv \/ argv = pull_argv os \/
  exists folder, os_Getwd os = inl folder /\ argv = compile_argv_of os folder.
Proof.
  revert argv r. main_cases; intros argv r' Hin; cbn [In] in Hin;
    repeat match goal with
           | H : _ \/ _ |- _ => destruct H
           | H : False |- _ => contradiction
           | H : EvPrint _ = EvExec _ _ |- _ => discriminate H
           | H : EvExec _ _ = EvExec _ _ |- _ => injection H as <- <-
           end;
    auto; right; right; right; eexists; (split; [reflexivity|reflexivity]).
Qed.

(** *** Failure of the version query *)

(** C8: when the version query of a run fails, the program exits with
    status 1 on the docker-installation message, and the version query is
    the only external command of the run: no image listing, no pull and
    no compilation. *)
Theorem version_failure_is_final (os : OS) (r : ProcResult) (e : string) :
  In (EvExec version_argv r) (snd (run_main os)) ->
  proc_err r = Some e ->
  fst (run_main os) = Fatal ("Failed to check docker installation: " ++ e ++ ".") /\
  exit_code (fst (run_main os)) = 1 /\
  (forall argv r', In (EvExec argv r') (snd (run_main os)) -> argv = version_argv).
Proof.
  revert r e. main_cases; intros r' e' Hin He; close_case;
    repeat split; try congruence;
    intros argv r'' Hin'; close_case; reflexivity.
Qed.

Lemma version_failure_is_final_witness :
  fst (run_main os_no_docker) =
  Fatal ("Failed to check docker installation: " ++
         "exec: docker: executable file not found in $PATH" ++ ".") /\
  exit_code (fst (run_main os_no_docker)) = 1 /\
  (forall argv r', In (EvExec argv r') (snd (run_main os_no_docker)) ->
                   argv = version_argv).
Proof.
  apply (version_failure_is_final os_no_docker proc_missing).
  - simpl. tauto.
  - reflexivity.
Defined.

(** *** Pulling the image *)

(** C7: if the image listing of a run succeeded without showing the image,
    a pull of that image is executed and no compilation comes before it;
    if the listing showed the image, the run executes no pull. *)
Theorem pull_exactly_when_absent (os : OS) (r : ProcResult) :
  In (EvExec images_argv r) (snd (run_main os)) ->
  proc_err r = None ->
  (bytes.Contains (proc_stdout r) (image_name os) = false ->
   exists before rp after,
     snd (run_main os) = (before ++ EvExec (pull_argv os) rp :: after)%list /\
     forall argv r', In (EvExec argv r') before -> ~ is_docker_run argv) /\
  (bytes.Contains (proc_stdout r) (image_name os) = true ->
   forall argv r', In (EvExec argv r') (snd (run_main os)) -> ~ is_docker_pull argv).
Proof.
  unfold image_name. revert r.
  main_cases; intros r' Hin He; close_case; split; intros Hc; try congruence;
    try (eexists [_; _; _; _; _; _; _], _, _; split; [reflexivity|]);
    intros argv r'' Hin' Hrun; close_case.
Qed.

Lemma pull_exactly_when_absent_witness :
  (bytes.Contains (proc_stdout proc_ok) (image_name os_quiet) = false ->
   exists before rp after,
     snd (run_main os_quiet) =
     (before ++ EvExec (pull_argv os_quiet) rp :: after)%list /\
     forall argv r', In (EvExec argv r') before -> ~ is_docker_run argv) /\
  (bytes.Contains (proc_stdout proc_ok) (image_name os_quiet) = true ->
   forall argv r', In (EvExec argv r') (snd (run_main os_quiet)) ->
                   ~ is_docker_pull argv).
Proof.
  apply (pull_exactly_when_absent os_quiet proc_ok).
  - simpl. tauto.
  - reflexivity.
Defined.

(** *** Validation of the command line *)

(** With no positional argument and a working docker, the version query
    has already been executed when [main] rejects the command line: an
    external process does run before the usage error. *)
Lemma no_args_after_version_query :
  flag_Args os_no_args = [] /\
  fst (run_main os_no_args) = Fatal "Usage: xgo [options] <go import path>" /\
  In (EvExec version_argv proc_ok) (snd (run_main os_no_args)).
Proof. vm_compute. tauto. Qed.

(** C2, amended: with zero positional arguments, when flag parsing
    returned, the program exits with status 1 after executing exactly one
    external command, the version query; the message is the usage line
    when that query succeeded and the docker-installation line when it
    failed; no image listing, pull or compilation is executed.  When flag
    parsing ended the process itself (status 0 for a help request, status
    2 for a bad flag), no external command is executed at all. *)
Theorem no_args_exit (os : OS) :
  flag_Args os = [] ->
  match flag_Parse_outcome os with
  | ParseOk =>
      exit_code (fst (run_main os)) = 1 /\
      exists r,
        execs (snd (run_main os)) = [version_argv] /\
        In (EvExec version_argv r) (snd (run_main os)) /\
        fst (run_main os) =
        match proc_err r with
        | None => Fatal ("Usage: " ++ os_Args0 os ++ " [options] <go import path>")
        | Some e => Fatal ("Failed to check docker installation: " ++ e ++ ".")
        end
  | ParseHelp => run_main os = (Exit 0, [])
  | ParseError => run_main os = (Exit 2, [])
  end.
Proof.
  intros Hargs.
  assert (Hlen : length (flag_Args os) <> 1) by (rewrite Hargs; discriminate).
  main_cases; try not_one_arg; try reflexivity;
    (split; [reflexivity|]);
    match goal with
    | Hr : proc_err ?r = _ |- _ =>
        exists r; rewrite Hr; cbn [execs In]; repeat split; auto
    end.
Qed.

Lemma no_args_exit_witness :
  match flag_Parse_outcome os_no_args with
  | ParseOk =>
      exit_code (fst (run_main os_no_args)) = 1 /\
      exists r,
        execs (snd (run_main os_no_args)) = [version_argv] /\
        In (EvExec version_argv r) (snd (run_main os_no_args)) /\
        fst (run_main os_no_args) =
        match proc_err r with
        | None => Fatal ("Usage: " ++ os_Args0 os_no_args ++ " [options] <go import path>")
        | Some e => Fatal ("Failed to check docker installation: " ++ e ++ ".")
        end
  | ParseHelp => run_main os_no_args = (Exit 0, [])
  | ParseError => run_main os_no_args = (Exit 2, [])
  end.
Proof.
  apply (no_args_exit os_no_args). reflexivity.
Defined.

(** *** The compilation command line *)

Lemma compile_argv_mount (g folder repo remote branch pack deps prefix : string)
    (t : Targets) (verbose race : bool) :
  nth_error (compile_argv g folder repo remote branch pack deps prefix t verbose race)
    mount_index = Some (folder ++ ":/build").
Proof. reflexivity. Qed.

Lemma compile_argv_modulo_mount (g folder1 folder2 repo remote branch pack deps prefix : string)
    (t : Targets) (verbose race : bool) :
  eq_modulo_mount
    (compile_argv g folder1 repo remote branch pack deps prefix t verbose race)
    (compile_argv g folder2 repo remote branch pack deps prefix t verbose race).
Proof.
  split; [reflexivity|]. unfold mount_index. intros i Hi.
  do 3 (destruct i as [|i]; [reflexivity|]).
  destruct i as [|i]; [congruence | reflexivity].
Qed.

Lemma run_main_docker_run (os : OS) (argv : list string) (r : ProcResult) :
  In (EvExec argv r) (snd (run_main os)) ->
  is_docker_run argv ->
  exists folder, os_Getwd os = inl folder /\ argv = compile_argv_of os folder.
Proof.
  intros Hin [rest ->].
  destruct (run_main_commands os _ _ Hin) as [H|[H|[H|H]]];
    [discriminate H | discriminate H | discriminate H | exact H].
Qed.

(** Two runs with the same build request but different Go releases run
    different images, so their command lines differ away from the mount. *)
Lemma same_request_other_image :
  same_request os_quiet os_go13 /\
  os_Getwd os_quiet = os_Getwd os_go13 /\
  exists a1 a2,
    In (EvExec a1 proc_ok) (snd (run_main os_quiet)) /\
    In (EvExec a2 proc_ok) (snd (run_main os_go13)) /\
    is_docker_run a1 /\ is_docker_run a2 /\
    ~ eq_modulo_mount a1 a2.
Proof.
  split; [repeat split|]. split; [reflexivity|].
  exists (compile_argv_of os_quiet "/home/user"),
         (compile_argv_of os_go13 "/home/user").
  split; [vm_compute; tauto|]. split; [vm_compute; tauto|].
  split; [eexists; reflexivity|]. split; [eexists; reflexivity|].
  intros [_ H]. specialize (H 32). unfold mount_index in H.
  assert (Hne : 32 <> 3) by lia. specialize (H Hne).
  vm_compute in H. discriminate H.
Qed.

(** C9, amended: two runs with the same build request and the same Go
    release build compilation command lines that agree at every position
    except the volume mount, which holds each run's working directory
    followed by ":/build". *)
Theorem compile_argv_deterministic (os1 os2 : OS) (a1 a2 : list string)
    (r1 r2 : ProcResult) :
  same_request os1 os2 ->
  goVersion (flags os1) = goVersion (flags os2) ->
  In (EvExec a1 r1) (snd (run_main os1)) -> is_docker_run a1 ->
  In (EvExec a2 r2) (snd (run_main os2)) -> is_docker_run a2 ->
  eq_modulo_mount a1 a2 /\
  (exists folder1, os_Getwd os1 = inl folder1 /\
                   nth_error a1 mount_index = Some (folder1 ++ ":/build")) /\
  (exists folder2, os_Getwd os2 = inl folder2 /\
                   nth_error a2 mount_index = Some (folder2 ++ ":/build")).
Proof.
  intros Hreq Hgo Hin1 Hrun1 Hin2 Hrun2.
  destruct (run_main_docker_run os1 a1 r1 Hin1 Hrun1) as [f1 [Hwd1 ->]].
  destruct (run_main_docker_run os2 a2 r2 Hin2 Hrun2) as [f2 [Hwd2 ->]].
  destruct Hreq as (Ha & Hr & Hb & Hp & Ht & Hd & Ho & Hv & Hc).
  unfold compile_argv_of.
  rewrite Hgo, Ha, Hr, Hb, Hp, Ht, Hd, Ho, Hv, Hc.
  split; [apply compile_argv_modulo_mount|].
  split; [exists f1 | exists f2]; (split; [assumption | apply compile_argv_mount]).
Qed.

Lemma compile_argv_deterministic_witness :
  eq_modulo_mount (compile_argv_of os_quiet "/home/user")
                  (compile_argv_of os_elsewhere "/tmp/work") /\
  (exists folder1, os_Getwd os_quiet = inl folder1 /\
     nth_error (compile_argv_of os_quiet "/home/user") mount_index =
     Some (folder1 ++ ":/build")) /\
  (exists folder2, os_Getwd os_elsewhere = inl folder2 /\
     nth_error (compile_argv_of os_elsewhere "/tmp/work") mount_index =
     Some (folder2 ++ ":/build")).
Proof.
  apply (compile_argv_deterministic os_quiet os_elsewhere _ _ proc_ok proc_ok).
  - repeat split.
  - reflexivity.
  - vm_compute. tauto.
  - eexists. reflexivity.
  - vm_compute. tauto.
  - eexists. reflexivity.
Defined.

(** *** The image-presence check *)

(** The listing names the image on its standard error only: the combined
    output contains the image, and the check still answers "absent". *)
Lemma checkDockerImage_ignores_stderr :
  proc_err proc_warning = None /\
  substring_of "karalabe/xgo-latest" (combined_output proc_warning) /\
  fst (checkDockerImage os_warning "karalabe/xgo-latest" []) = Ok (false, None).
Proof.
  split; [reflexivity|]. split; [|reflexivity].
  apply Contains_spec. vm_compute. reflexivity.
Qed.

(** C6, amended: the image-presence check executes the image-listing
    subcommand once and captures its standard output; it returns the
    error of that execution, if any, together with false; when the
    execution succeeded it returns true exactly when the captured
    standard output contains the image identifier as a substring. *)
Theorem checkDockerImage_spec (os : OS) (image : string) (tr : Trace) :
  let notice := EvPrint ("Checking for required docker image " ++ image ++ "... ") in
  let r := os_exec os (tr ++ [notice])%list images_argv in
  exists found,
    checkDockerImage os image tr =
    (Ok (found, proc_err r), (tr ++ [notice; EvExec images_argv r])%list) /\
    (proc_err r = None -> (found = true <-> substring_of image (proc_stdout r))) /\
    (proc_err r <> None -> found = false).
Proof.
  intros notice r. unfold checkDockerImage, exec_Output, fmt_Print, emit, bind, ret.
  cbn [fst snd]. fold notice. fold images_argv. fold r.
  rewrite <- app_assoc. cbn [app].
  destruct (proc_err r) as [e|] eqn:He.
  - exists false. repeat split; congruence.
  - exists (bytes.Contains (proc_stdout r) image).
    split; [reflexivity|]. split; [|congruence].
    intros _. apply Contains_spec.
Qed.

(** *** The DARWIN386 variable *)

(** C1: the DARWIN386 assignment built by compile carries the two bytes
    "%s" between the equals sign and the flag, unlike the DARWIN64
    assignment next to it: a default run passes "DARWIN386=%strue" and
    never "DARWIN386=true". *)
Theorem compile_argv_DARWIN386
    (g folder repo remote branch pack deps prefix : string)
    (t : Targets) (verbose race : bool) :
  let argv := compile_argv g folder repo remote branch pack deps prefix t verbose race in
  nth_error argv 21 = Some ("DARWIN64=" ++ darwin64 t) /\
  nth_error argv 23 = Some ("DARWIN386=%s" ++ darwin386 t) /\
  nth_error argv 23 <> Some ("DARWIN386=" ++ darwin386 t) /\
  (exists a, In (EvExec a proc_ok) (snd (run_main os_quiet)) /\
             is_docker_run a /\
             In "DARWIN64=true" a /\
             In "DARWIN386=%strue" a /\
             ~ In "DARWIN386=true" a).
Proof.
  intros argv. split; [reflexivity|]. split; [reflexivity|]. split.
  - cbn [argv compile_argv nth_error]. intros H. injection H as H.
    apply (f_equal String.length) in H. simpl in H. lia.
  - exists (compile_argv_of os_quiet "/home/user").
    split; [vm_compute; tauto|]. split; [eexists; reflexivity|].
    split; [vm_compute; tauto|]. split; [vm_compute; tauto|].
    vm_compute. intros H.
    repeat match goal with
           | H : _ \/ _ |- _ => destruct H as [H|H]; [discriminate H|]
           end.
    exact H.
Qed.

(** * Further properties of the code *)

(** ** The membership loop *)

(** X1: stringInSlice answers true exactly when the string is an element
    of the slice, wherever it stands and whatever surrounds it. *)
Theorem stringInSlice_membership (a : string) (l : list string) :
  (stringInSlice a l = true <-> In a l) /\
  (forall l', stringInSlice a (l ++ l')%list =
              stringInSlice a l || stringInSlice a l').
Proof.
  split; [apply stringInSlice_In|].
  intros l'. induction l as [|b l IH]; simpl; [reflexivity|].
  destruct (String.eqb b a); [reflexivity | exact IH].
Qed.

(** ** Target selection on arbitrary specs *)

Lemma recognized_In (t : string) : recognized t = true <-> In t identifiers.
Proof. apply stringInSlice_In. Qed.

(** X2: for every spec other than "all", getTargets prints nothing,
    cannot fail, and sets each flag to "true" exactly when its identifier
    is one of the slices of the spec between commas, to "false"
    otherwise. *)
Theorem getTargets_by_membership (s : string) (tr : Trace) :
  s <> "all" ->
  exists t,
    getTargets s tr = (Ok t, tr) /\ named_by t (strings.Split s ",").
Proof. apply getTargets_not_all. Qed.

Lemma getTargets_by_membership_witness :
  exists t,
    getTargets "linuxArm,,plan9, linux64" [] = (Ok t, []) /\
    named_by t (strings.Split "linuxArm,,plan9, linux64" ",").
Proof.
  apply (getTargets_by_membership "linuxArm,,plan9, linux64" []).
  discriminate.
Defined.

(** X3: tokens that are not one of the seven identifiers (unknown names,
    empty tokens, names with spaces or other case) have no effect: the
    result for a token list is the result for its recognized tokens. *)
Theorem getTargets_ignores_unrecognized (toks : list string) (tr : Trace) :
  Forall (fun t => no_comma t = true) toks ->
  toks <> ["all"] ->
  getTargets (strings.Join toks ",") tr =
  getTargets (strings.Join (filter recognized toks) ",") tr.
Proof.
  intros Hall Hne.
  assert (Hall' : Forall (fun t => no_comma t = true) (filter recognized toks)).
  { apply Forall_forall. intros x Hx. apply filter_In in Hx as [Hx _].
    revert x Hx. now apply Forall_forall. }
  assert (Hne' : filter recognized toks <> ["all"]).
  { intros Heq.
    assert (Hin : In "all" (filter recognized toks)) by (rewrite Heq; now left).
    apply filter_In in Hin as [_ Hrec]. discriminate Hrec. }
  destruct (getTargets_Join toks tr Hall Hne) as [t [-> Ht]].
  destruct (getTargets_Join _ tr Hall' Hne') as [t' [-> Ht']].
  f_equal. f_equal. apply (named_by_unique t t' (filter recognized toks)); [|assumption].
  eapply named_by_ext; [|eassumption].
  intros id Hid. rewrite filter_In, recognized_In. tauto.
Qed.

Lemma getTargets_ignores_unrecognized_witness :
  getTargets (strings.Join ["Linux64"; ""; "darwin64"; " linux386"; "plan9"] ",") [] =
  getTargets
    (strings.Join (filter recognized ["Linux64"; ""; "darwin64"; " linux386"; "plan9"]) ",")
    [].
Proof.
  apply (getTargets_ignores_unrecognized
           ["Linux64"; ""; "darwin64"; " linux386"; "plan9"] []).
  - repeat constructor.
  - discriminate.
Defined.

(** ** Whole runs *)

(** A help request ends the run in [flag.Parse], before any command. *)
Example help_runs_nothing : run_main os_help = (Exit 0, []).
Proof. reflexivity. Qed.


(** X5: when flag parsing returned with any number of positional
    arguments other than one (none, or two and more), the run exits with
    status 1 having executed the version query only, and on the usage
    line when that query succeeded. *)
Theorem wrong_argument_count (os : OS) :
  flag_Parse_outcome os = ParseOk ->
  length (flag_Args os) <> 1 ->
  exit_code (fst (run_main os)) = 1 /\
  execs (snd (run_main os)) = [version_argv] /\
  (forall r, In (EvExec version_argv r) (snd (run_main os)) ->
             proc_err r = None ->
             fst (run_main os) =
             Fatal ("Usage: " ++ os_Args0 os ++ " [options] <go import path>")).
Proof.
  intros Hparse Hlen. main_cases; try discriminate Hparse; try not_one_arg;
    (split; [reflexivity | split; [reflexivity|]]);
    intros r' Hin He; close_case.
Qed.

Lemma wrong_argument_count_witness :
  exit_code (fst (run_main os_two_args)) = 1 /\
  execs (snd (run_main os_two_args)) = [version_argv] /\
  (forall r, In (EvExec version_argv r) (snd (run_main os_two_args)) ->
             proc_err r = None ->
             fst (run_main os_two_args) =
             Fatal ("Usage: " ++ os_Args0 os_two_args ++ " [options] <go import path>")).
Proof.
  apply (wrong_argument_count os_two_args).
  - reflexivity.
  - simpl. lia.
Defined.

(** X6: when the image listing of a run fails, the run exits with status
    1 on the image-availability message carrying the error, and neither
    pulls nor compiles. *)
Theorem listing_failure_is_final (os : OS) (r : ProcResult) (e : string) :
  In (EvExec images_argv r) (snd (run_main os)) ->
  proc_err r = Some e ->
  fst (run_main os) =
  Fatal ("Failed to check docker image availability: " ++ e ++ ".") /\
  execs (snd (run_main os)) = [version_argv; images_argv].
Proof.
  revert r e. main_cases; intros r' e' Hin He; close_case;
    split; first [reflexivity | congruence].
Qed.

Lemma listing_failure_is_final_witness :
  fst (run_main (os_failing "images")) =
  Fatal ("Failed to check docker image availability: " ++ "exit status 1" ++ ".") /\
  execs (snd (run_main (os_failing "images"))) = [version_argv; images_argv].
Proof.
  apply (listing_failure_is_final (os_failing "images") proc_failed).
  - vm_compute. tauto.
  - reflexivity.
Defined.

(** X7: when the pull of a run fails, the run exits with status 1 on the
    registry message carrying the error, and the compilation is never
    started. *)
Theorem pull_failure_is_final (os : OS) (r : ProcResult) (e : string) :
  In (EvExec (pull_argv os) r) (snd (run_main os)) ->
  proc_err r = Some e ->
  fst (run_main os) =
  Fatal ("Failed to pull docker image from the registry: " ++ e ++ ".") /\
  execs (snd (run_main os)) = [version_argv; images_argv; pull_argv os].
Proof.
  revert r e. main_cases; intros r' e' Hin He; close_case;
    split; first [reflexivity | congruence].
Qed.

Lemma pull_failure_is_final_witness :
  fst (run_main (os_failing "pull")) =
  Fatal ("Failed to pull docker image from the registry: " ++ "exit status 1" ++ ".") /\
  execs (snd (run_main (os_failing "pull"))) =
  [version_argv; images_argv; pull_argv (os_failing "pull")].
Proof.
  apply (pull_failure_is_final (os_failing "pull") proc_failed).
  - vm_compute. tauto.
  - reflexivity.
Defined.

(** X8: when the working directory cannot be read, no run executes a
    compilation command or returns from main; and a run whose image
    stage went through (the listing succeeded and showed the image, or
    the pull succeeded) ends on the working-directory message carrying
    the error. *)
Theorem no_working_directory (os : OS) (e : string) :
  os_Getwd os = inr e ->
  (forall argv r, In (EvExec argv r) (snd (run_main os)) -> ~ is_docker_run argv) /\
  fst (run_main os) <> Ok tt /\
  (forall ri,
     In (EvExec images_argv ri) (snd (run_main os)) ->
     proc_err ri = None ->
     bytes.Contains (proc_stdout ri) (image_name os) = true \/
     (exists rp, In (EvExec (pull_argv os) rp) (snd (run_main os)) /\
                 proc_err rp = None) ->
     fst (run_main os) =
     Fatal ("Failed to retrieve the working directory: " ++ e ++ ".")).
Proof.
  intros Hwd. split; [|split].
  - intros argv r Hin Hrun.
    destruct (run_main_docker_run os argv r Hin Hrun) as [folder [Hwd' _]].
    congruence.
  - main_cases; congruence.
  - unfold image_name.
    main_cases; intros ri Hin He Hstage; close_case.
Qed.

Lemma no_working_directory_witness :
  (forall argv r, In (EvExec argv r) (snd (run_main os_no_cwd)) ->
                  ~ is_docker_run argv) /\
  fst (run_main os_no_cwd) <> Ok tt /\
  (forall ri,
     In (EvExec images_argv ri) (snd (run_main os_no_cwd)) ->
     proc_err ri = None ->
     bytes.Contains (proc_stdout ri) (image_name os_no_cwd) = true \/
     (exists rp, In (EvExec (pull_argv os_no_cwd) rp) (snd (run_main os_no_cwd)) /\
                 proc_err rp = None) ->
     fst (run_main os_no_cwd) =
     Fatal ("Failed to retrieve the working directory: " ++
            "getwd: no such file or directory" ++ ".")).
Proof.
  apply (no_working_directory os_no_cwd). reflexivity.
Defined.

(** X9: a run ends with status 0 exactly when flag parsing ended the
    process on a help request, or the run executed the compilation
    command and that command reported no error; main itself returns
    exactly in the second case. *)
Theorem success_iff_compiled (os : OS) :
  (exit_code (fst (run_main os)) = 0 <->
   flag_Parse_outcome os = ParseHelp \/
   exists argv r,
     In (EvExec argv r) (snd (run_main os)) /\ is_docker_run argv /\
     proc_err r = None) /\
  (fst (run_main os) = Ok tt <->
   exists argv r,
     In (EvExec argv r) (snd (run_main os)) /\ is_docker_run argv /\
     proc_err r = None).
Proof.
  main_cases;
    (split;
     [ split; [intros Hexit | intros [Hp | (argv & r' & Hin & Hrun & He)]]
     | split; [intros Hexit | intros (argv & r' & Hin & Hrun & He)] ]);
    try discriminate;
    try (left; reflexivity);
    try (try right;
         match goal with
         | |- context [[EvExec ?a ?r]] =>
             exists a, r; split; [cbn [In]; tauto |];
             split; [eexists; reflexivity | assumption]
         end);
    close_case.
Qed.

(** X10: when the compilation command of a run reports an error, the run
    exits with status 1 on the cross-compile message carrying that
    error. *)
Theorem compile_failure_is_fatal (os : OS) (argv : list string) (r : ProcResult)
    (e : string) :
  In (EvExec argv r) (snd (run_main os)) ->
  is_docker_run argv ->
  proc_err r = Some e ->
  fst (run_main os) = Fatal ("Failed to cross compile package: " ++ e ++ ".").
Proof.
  revert argv r e. main_cases; intros argv r' e' Hin Hrun He; close_case.
Qed.

Lemma compile_failure_is_fatal_witness :
  fst (run_main (os_failing "run")) =
  Fatal ("Failed to cross compile package: " ++ "exit status 1" ++ ".").
Proof.
  apply (compile_failure_is_fatal (os_failing "run")
           (compile_argv_of (os_failing "run") "/home/user") proc_failed).
  - vm_compute. tauto.
  - eexists. reflexivity.
  - reflexivity.
Defined.

(** X11: within a run, the image that is pulled and the image that is run
    are the same, the fixed prefix followed by the -go release. *)
Theorem pulled_image_is_run_image (os : OS) (p a : list string) (rp ra : ProcResult) :
  In (EvExec p rp) (snd (run_main os)) -> is_docker_pull p ->
  In (EvExec a ra) (snd (run_main os)) -> is_docker_run a ->
  p = ["docker"; "pull"; "karalabe/xgo-" ++ goVersion (flags os)] /\
  nth_error a image_index = Some ("karalabe/xgo-" ++ goVersion (flags os)).
Proof.
  intros Hp [restp ->] Ha Hrun.
  destruct (run_main_docker_run os a ra Ha Hrun) as [folder [_ ->]].
  split; [|reflexivity].
  destruct (run_main_commands os _ _ Hp) as [H|[H|[H|[f [_ H]]]]];
    try discriminate H.
  exact H.
Qed.

Lemma pulled_image_is_run_image_witness :
  pull_argv os_go13 = ["docker"; "pull"; "karalabe/xgo-" ++ goVersion (flags os_go13)] /\
  nth_error (compile_argv_of os_go13 "/home/user") image_index =
  Some ("karalabe/xgo-" ++ goVersion (flags os_go13)).
Proof.
  apply (pulled_image_is_run_image os_go13 _ _ proc_ok proc_ok).
  - vm_compute. tauto.
  - eexists. reflexivity.
  - vm_compute. tauto.
  - eexists. reflexivity.
Defined.

(** ** The image-presence check as a substring test *)

Lemma string_app_assoc (a b c : string) : (a ++ b) ++ c = a ++ b ++ c.
Proof. induction a as [|x a IH]; simpl; [reflexivity | now rewrite IH]. Qed.

Lemma substring_of_trans (a b c : string) :
  substring_of a b -> substring_of b c -> substring_of a c.
Proof.
  intros [l1 [r1 ->]] [l2 [r2 ->]].
  exists (l2 ++ l1), (r1 ++ r2).
  now rewrite !string_app_assoc.
Qed.

(** X12: the check cannot tell an image from one whose name contains it:
    when the listing succeeds and shows any name of which the identifier
    is a substring, the check answers "present". *)
Theorem checkDockerImage_longer_name (os : OS) (image other : string) (tr : Trace) :
  let notice := EvPrint ("Checking for required docker image " ++ image ++ "... ") in
  let r := os_exec os (tr ++ [notice])%list images_argv in
  proc_err r = None ->
  substring_of image other ->
  substring_of other (proc_stdout r) ->
  fst (checkDockerImage os image tr) = Ok (true, None).
Proof.
  intros notice r He Hsub Hout.
  unfold checkDockerImage, exec_Output, fmt_Print, emit, bind, ret.
  cbn [fst snd]. fold notice. fold images_argv. fold r. rewrite He.
  cbn [fst]. f_equal. f_equal.
  apply Contains_spec. eapply substring_of_trans; eassumption.
Qed.

Lemma checkDockerImage_longer_name_witness :
  fst (checkDockerImage os_lists_131 "karalabe/xgo-1.3" []) = Ok (true, None).
Proof.
  apply (checkDockerImage_longer_name os_lists_131 "karalabe/xgo-1.3"
           "karalabe/xgo-1.3.1" []).
  - reflexivity.
  - apply Contains_spec. vm_compute. reflexivity.
  - apply Contains_spec. vm_compute. reflexivity.
Defined.

(** ** What the container is told *)

Lemma targets_of_true_false (spec : string) :
  Forall (fun v => v = "true" \/ v = "false")
    [linux64 (targets_of spec); linux386 (targets_of spec);
     linuxArm (targets_of spec); windows64 (targets_of spec);
     windows386 (targets_of spec); darwin64 (targets_of spec);
     darwin386 (targets_of spec)].
Proof.
  unfold targets_of, getTargets, bind, ret, fmt_Print, emit.
  destruct (String.eqb spec "all"); cbn [negb fst];
    cbn [linux64 linux386 linuxArm windows64 windows386 darwin64 darwin386].
  - repeat apply Forall_cons; try apply Forall_nil; now left.
  - repeat apply Forall_cons; try apply Forall_nil;
      match goal with
      | |- context [stringInSlice ?i ?l] => destruct (stringInSlice i l)
      end; auto.
Qed.

(** X13: in every compilation command of a run, each of the seven target
    assignments is its fixed text followed by "true" or by "false",
    whatever the target spec was. *)
Theorem target_assignments_true_false (os : OS) (a : list string) (r : ProcResult)
    (i : nat) (name : string) :
  In (EvExec a r) (snd (run_main os)) -> is_docker_run a ->
  In (i, name) target_vars ->
  nth_error a i = Some (name ++ "true") \/ nth_error a i = Some (name ++ "false").
Proof.
  intros Hin Hrun Hvar.
  destruct (run_main_docker_run os a r Hin Hrun) as [folder [_ ->]].
  pose proof (targets_of_true_false (targets (flags os))) as Hb.
  unfold compile_argv_of.
  repeat match goal with
         | H : Forall _ (_ :: _) |- _ => inversion H; subst; clear H
         end.
  unfold target_vars in Hvar. cbn [In] in Hvar.
  repeat destruct Hvar as [Hvar|Hvar]; try contradiction;
    injection Hvar as <- <-; cbn [nth_error compile_argv];
    match goal with
    | H : ?f (targets_of _) = "true" \/ _ |- context [?f (targets_of _)] =>
        destruct H as [->| ->]; [left | right]; reflexivity
    end.
Qed.

Lemma target_assignments_true_false_witness :
  nth_error (compile_argv_of os_quiet "/home/user") 11 = Some ("LINUX64=" ++ "true") \/
  nth_error (compile_argv_of os_quiet "/home/user") 11 = Some ("LINUX64=" ++ "false").
Proof.
  apply (target_assignments_true_false os_quiet _ proc_ok).
  - vm_compute. tauto.
  - eexists. reflexivity.
  - simpl. tauto.
Defined.

(** X14: a compilation command is only ever executed in a run with
    exactly one positional argument, and that argument is its last word,
    after the image name. *)
Theorem compiled_import_path (os : OS) (a : list string) (r : ProcResult) :
  In (EvExec a r) (snd (run_main os)) -> is_docker_run a ->
  exists repo,
    flag_Args os = [repo] /\
    length a = 34 /\
    nth_error a 33 = Some repo.
Proof.
  intros Hin Hrun.
  destruct (run_main_docker_run os a r Hin Hrun) as [folder [_ ->]].
  assert (Hone : length (flag_Args os) = 1).
  { destruct (Nat.eq_dec (length (flag_Args os)) 1) as [H|H]; [exact H|].
    exfalso. revert Hin Hrun. generalize (compile_argv_of os folder). revert r.
    main_cases; try not_one_arg; intros r' l Hin Hrun; close_case. }
  destruct (flag_Args os) as [|repo [|x rest]] eqn:Hargs; try discriminate Hone.
  exists repo. unfold compile_argv_of. rewrite Hargs.
  repeat split.
Qed.

Lemma compiled_import_path_witness :
  exists repo,
    flag_Args os_quiet = [repo] /\
    length (compile_argv_of os_quiet "/home/user") = 34 /\
    nth_error (compile_argv_of os_quiet "/home/user") 33 = Some repo.
Proof.
  apply (compiled_import_path os_quiet _ proc_ok).
  - vm_compute. tauto.
  - eexists. reflexivity.
Defined.

(** X15: the compilation command of a run carries the command-line flags
    unchanged, each under its own variable: -remote as REPO_REMOTE,
    -branch as REPO_BRANCH, -pkg as PACK, -deps as DEPS, -out as OUT, -v
    as FLAG_V and -race as FLAG_RACE, and mounts the working directory on
    /build. *)
Theorem flags_reach_container (os : OS) (a : list string) (r : ProcResult) :
  In (EvExec a r) (snd (run_main os)) -> is_docker_run a ->
  nth_error a 5 = Some ("REPO_REMOTE=" ++ srcRemote (flags os)) /\
  nth_error a 7 = Some ("REPO_BRANCH=" ++ srcBranch (flags os)) /\
  nth_error a 9 = Some ("PACK=" ++ inPackage (flags os)) /\
  nth_error a 25 = Some ("DEPS=" ++ crossDeps (flags os)) /\
  nth_error a 27 = Some ("OUT=" ++ outPrefix (flags os)) /\
  nth_error a 29 = Some (if buildVerbose (flags os) then "FLAG_V=true" else "FLAG_V=false") /\
  nth_error a 31 = Some (if buildRace (flags os) then "FLAG_RACE=true" else "FLAG_RACE=false") /\
  exists folder,
    os_Getwd os = inl folder /\
    nth_error a mount_index = Some (folder ++ ":/build").
Proof.
  intros Hin Hrun.
  destruct (run_main_docker_run os a r Hin Hrun) as [folder [Hwd ->]].
  unfold compile_argv_of, mount_index. cbn [nth_error compile_argv].
  repeat split.
  - now destruct (buildVerbose (flags os)).
  - now destruct (buildRace (flags os)).
  - exists folder. now split.
Qed.

Lemma flags_reach_container_witness :
  let a := compile_argv_of os_quiet "/home/user" in
  nth_error a 5 = Some ("REPO_REMOTE=" ++ srcRemote (flags os_quiet)) /\
  nth_error a 7 = Some ("REPO_BRANCH=" ++ srcBranch (flags os_quiet)) /\
  nth_error a 9 = Some ("PACK=" ++ inPackage (flags os_quiet)) /\
  nth_error a 25 = Some ("DEPS=" ++ crossDeps (flags os_quiet)) /\
  nth_error a 27 = Some ("OUT=" ++ outPrefix (flags os_quiet)) /\
  nth_error a 29 =
  Some (if buildVerbose (flags os_quiet) then "FLAG_V=true" else "FLAG_V=false") /\
  nth_error a 31 =
  Some (if buildRace (flags os_quiet) then "FLAG_RACE=true" else "FLAG_RACE=false") /\
  exists folder,
    os_Getwd os_quiet = inl folder /\
    nth_error a mount_index = Some (folder ++ ":/build").
Proof.
  apply (flags_reach_container os_quiet _ proc_ok).
  - vm_compute. tauto.
  - eexists. reflexivity.
Defined.

(** X16: in the compilation command of a run, a target's assignment is
    its fixed text (LINUX64=, ..., DARWIN64=, and DARWIN386=%s as the code
    has it for darwin-386) followed by "true" exactly when the -targets
    spec is "all" or has the target's identifier as one of its
    comma-separated slices. *)
Theorem target_assignment_true_iff (os : OS) (a : list string) (r : ProcResult)
    (i : nat) (name id : string) :
  In (EvExec a r) (snd (run_main os)) -> is_docker_run a ->
  In (i, name, id) target_table ->
  (nth_error a i = Some (name ++ "true") <->
   targets (flags os) = "all" \/
   In id (strings.Split (targets (flags os)) ",")).
Proof.
  intros Hin Hrun Hvar.
  destruct (run_main_docker_run os a r Hin Hrun) as [folder [_ ->]].
  unfold compile_argv_of, targets_of, getTargets, bind, ret, fmt_Print, emit.
  unfold target_table in Hvar. cbn [In] in Hvar.
  destruct (String.eqb_spec (targets (flags os)) "all") as [Hall|Hall];
    cbn [negb fst];
    repeat destruct Hvar as [Hvar|Hvar]; try contradiction;
    injection Hvar as <- <- <-;
    cbn [nth_error compile_argv linux64 linux386 linuxArm windows64 windows386
           darwin64 darwin386];
    try (split; [intros _; now left | reflexivity]);
    match goal with
    | |- context [stringInSlice ?x ?l] =>
        destruct (stringInSlice x l) eqn:E;
        [ apply stringInSlice_In in E; split; [intros _; now right | reflexivity]
        | apply stringInSlice_false in E; split;
          [intros H; discriminate H | intros [H|H]; contradiction] ]
    end.
Qed.

Lemma target_assignment_true_iff_witness :
  nth_error (compile_argv_of os_quiet "/home/user") 15 = Some ("LINUXARM=" ++ "true") <->
  targets (flags os_quiet) = "all" \/
  In "linuxArm" (strings.Split (targets (flags os_quiet)) ",").
Proof.
  apply (target_assignment_true_iff os_quiet _ proc_ok).
  - vm_compute. tauto.
  - eexists. reflexivity.
  - simpl. tauto.
Defined.
